(** * Valuation reasoner: the DCF pipeline of [Index.py]

    The numeric part of the script is embedded function by function:
    [project_revenues], [project_free_cash_flows], [discount_cash_flows],
    [terminal_value] and [dcf_valuation].

    Modelling choices.
    - A Python [float] is a rational ([Q]), and [+], [-], [*] and [/] are
      exact: their rounding, infinities and NaN are outside the model.  The
      exceptions of float arithmetic are kept.  [/] by zero raises
      [ZeroDivisionError].  [**] raises [OverflowError] when the power leaves
      the range of a binary64 float, gives 0.0 when it is too small for one
      (so that a division by it raises), and raises [ZeroDivisionError] for
      [0.0 ** negative].  The theorems below are about the order of the
      statements, the shape of the results and the exceptions; none relies
      on an identity that rounding would break.
    - A Python [int] ([forecast_periods], the [enumerate] counter) is a [Z].
    - A raised exception is a value of [Py.result]; statements run in the
      order of the source, so the first exception raised is the one returned.
    - [dcf_valuation] returns a pair (numeric dict, explanation text).  The
      numeric dict is the record [ValuationResult], and [dcf_valuation] below
      is the function up to that dict.  [dcf_valuation_explained] is the
      whole function, text included, with the renderings of numbers
      (f-string format specifications, [json.dumps]) as parameters.
    - Equalities between computed rationals are Leibniz equalities whenever
      the code computes exactly the stated expression; [==] ([Qeq]) is used
      only where a comparison of the source is a numeric one. *)

From Stdlib Require Import String Ascii.
From Stdlib Require Import QArith ZArith List Bool Lia Lqa Qpower Qabs.
Import ListNotations.

Local Open Scope Q_scope.

(** ** The fragment of Python the script uses *)

Module Py.

(** The exception classes the pipeline can raise. *)
Inductive exn : Set :=
| IndexError
| ValueError
| ZeroDivisionError
| OverflowError.

Inductive result (A : Type) : Type :=
| Ok (a : A)
| Raise (e : exn).

Arguments Ok {A} a.
Arguments Raise {A} e.

Definition bind {A B : Type} (c : result A) (k : A -> result B) : result B :=
  match c with
  | Ok a => k a
  | Raise e => Raise e
  end.

(** [a / b] on floats. *)
Definition truediv (a b : Q) : result Q :=
  if Qeq_bool b 0 then Raise ZeroDivisionError else Ok (a / b).

(** The range of a binary64 float: a magnitude of [float_overflow] or more
    rounds to infinity, one of [float_underflow] or less rounds to 0.0. *)
Definition float_overflow : Q := 2 ^ 1024 - 2 ^ 970.

Definition float_underflow : Q := 2 ^ (-1075).

(** [b ** e] with a float base and an int exponent: [0.0 ** negative] and a
    result out of range raise, a result too small is 0.0. *)
Definition pow (b : Q) (e : Z) : result Q :=
  if Qeq_bool b 0 && (e <? 0)%Z then Raise ZeroDivisionError
  else if Qle_bool float_overflow (Qabs (b ^ e)) then Raise OverflowError
  else if Qle_bool (Qabs (b ^ e)) float_underflow then Ok 0
  else Ok (b ^ e).

(** [l[:n]]: a negative bound counts from the end, and no bound is ever
    out of range. *)
Definition slice_to {A : Type} (l : list A) (n : Z) : list A :=
  if (0 <=? n)%Z then firstn (Z.to_nat n) l
  else firstn (Z.to_nat (Z.of_nat (length l) + n)) l.

(** [l[-1]]. *)
Definition last_item {A : Type} (l : list A) : result A :=
  match rev l with
  | [] => Raise IndexError
  | x :: _ => Ok x
  end.

(** [enumerate(l, start)]. *)
Fixpoint enumerate {A : Type} (l : list A) (start : Z) : list (Z * A) :=
  match l with
  | [] => []
  | x :: xs => (start, x) :: enumerate xs (start + 1)
  end.

(** [sum(l)]: left to right, from the integer 0. *)
Definition sum (l : list Q) : Q := fold_left Qplus l 0.

(** A [for] loop whose body may raise: [s] is the state the loop updates. *)
Fixpoint for_each {S A : Type} (body : S -> A -> result S)
         (xs : list A) (s : S) : result S :=
  match xs with
  | [] => Ok s
  | x :: xs' => bind (body s x) (for_each body xs')
  end.

End Py.

Import Py.

Notation "x <- c ;; k" := (Py.bind c (fun x => k))
  (at level 61, c at next level, right associativity).

(** ** Data model *)

Record DCFInputs : Type := mkDCFInputs {
  current_revenue : Q;
  revenue_growth_rates : list Q;
  profit_margin : Q;
  tax_rate : Q;
  reinvestment_rate : Q;
  discount_rate : Q;
  terminal_growth_rate : Q;
  forecast_periods : Z
}.

(** The [numeric] dict of [dcf_valuation], one field per key; the key
    ['terminal_value'] is the field [res_terminal_value], the plain name
    being the function's. *)
Record ValuationResult : Type := mkValuationResult {
  revenues : list Q;
  fcfs : list Q;
  discounted_fcfs : list Q;
  res_terminal_value : Q;
  pv_terminal_value : Q;
  enterprise_value : Q
}.

(** ** The pipeline *)

(** The loop carries [r] and the list it appends to. *)
Definition project_revenues (current_revenue : Q) (growth_rates : list Q)
  : list Q :=
  snd (fold_left
         (fun (st : Q * list Q) (g : Q) =>
            let '(r, revenues) := st in
            let r := r * (1 + g) in
            (r, revenues ++ [r]))
         growth_rates (current_revenue, [])).

Definition project_free_cash_flows (revenues : list Q)
           (margin reinvestment_rate : Q) : list Q :=
  fold_left
    (fun (fcfs : list Q) (rev : Q) =>
       let fcf := rev * margin * (1 - reinvestment_rate) in
       fcfs ++ [fcf])
    revenues [].

Definition discount_cash_flows (cash_flows : list Q) (discount_rate : Q)
  : result (list Q) :=
  for_each
    (fun (discounted : list Q) (ic : Z * Q) =>
       let '(i, cf) := ic in
       d <- pow (1 + discount_rate) i ;;
       pv <- truediv cf d ;;
       Ok (discounted ++ [pv]))
    (enumerate cash_flows 1) [].

Definition terminal_value (last_cash_flow discount_rate terminal_growth : Q)
  : result Q :=
  if Qle_bool discount_rate terminal_growth then Raise ValueError
  else
    tv <- truediv (last_cash_flow * (1 + terminal_growth))
                  (discount_rate - terminal_growth) ;;
    Ok tv.

Definition dcf_valuation (inputs : DCFInputs) : result ValuationResult :=
  let growths :=
    slice_to (revenue_growth_rates inputs) (forecast_periods inputs) in
  let revenues := project_revenues (current_revenue inputs) growths in
  let fcfs :=
    project_free_cash_flows revenues (profit_margin inputs)
                            (reinvestment_rate inputs) in
  discounted_fcfs <- discount_cash_flows fcfs (discount_rate inputs) ;;
  last_fcf <- last_item fcfs ;;
  tv <- terminal_value last_fcf (discount_rate inputs)
                       (terminal_growth_rate inputs) ;;
  d <- pow (1 + discount_rate inputs) (forecast_periods inputs) ;;
  pv_tv <- truediv tv d ;;
  let ev := sum discounted_fcfs + pv_tv in
  Ok {| revenues := revenues;
        fcfs := fcfs;
        discounted_fcfs := discounted_fcfs;
        res_terminal_value := tv;
        pv_terminal_value := pv_tv;
        enterprise_value := ev |}.

(** The example of the script's [__main__] block. *)
Definition example_inputs : DCFInputs :=
  {| current_revenue := 100000000;
     revenue_growth_rates := [0.20; 0.15; 0.12; 0.10; 0.08];
     profit_margin := 0.18;
     tax_rate := 0.25;
     reinvestment_rate := 0.20;
     discount_rate := 0.10;
     terminal_growth_rate := 0.03;
     forecast_periods := 5 |}.

(** ** Closed forms used in the statements *)

(** What the loop of [project_revenues] builds, by recursion on the rates. *)
Fixpoint compound (r : Q) (growth_rates : list Q) : list Q :=
  match growth_rates with
  | [] => []
  | g :: gs => r * (1 + g) :: compound (r * (1 + g)) gs
  end.

(** One present value, as the body of the discounting loop computes it. *)
Definition present_value (rate : Q) (ic : Z * Q) : Q :=
  snd ic / (1 + rate) ^ fst ic.

(** The rates the valuation projects over: [revenue_growth_rates[:forecast_periods]]. *)
Definition growths (inputs : DCFInputs) : list Q :=
  slice_to (revenue_growth_rates inputs) (forecast_periods inputs).

(** The record [dcf_valuation] returns when no statement raises. *)
Definition closed_form (inputs : DCFInputs) : ValuationResult :=
  let revenues := compound (current_revenue inputs) (growths inputs) in
  let fcfs :=
    map (fun rev => rev * profit_margin inputs * (1 - reinvestment_rate inputs))
        revenues in
  let discounted_fcfs :=
    map (present_value (discount_rate inputs)) (enumerate fcfs 1) in
  let tv :=
    last fcfs 0 * (1 + terminal_growth_rate inputs)
    / (discount_rate inputs - terminal_growth_rate inputs) in
  let pv_tv := tv / (1 + discount_rate inputs) ^ forecast_periods inputs in
  {| revenues := revenues;
     fcfs := fcfs;
     discounted_fcfs := discounted_fcfs;
     res_terminal_value := tv;
     pv_terminal_value := pv_tv;
     enterprise_value := sum discounted_fcfs + pv_tv |}.

(** Record updates, for the statements that vary one field. *)
Definition set_tax_rate (t : Q) (inputs : DCFInputs) : DCFInputs :=
  {| current_revenue := current_revenue inputs;
     revenue_growth_rates := revenue_growth_rates inputs;
     profit_margin := profit_margin inputs;
     tax_rate := t;
     reinvestment_rate := reinvestment_rate inputs;
     discount_rate := discount_rate inputs;
     terminal_growth_rate := terminal_growth_rate inputs;
     forecast_periods := forecast_periods inputs |}.

Definition set_growth_rates (rates : list Q) (inputs : DCFInputs) : DCFInputs :=
  {| current_revenue := current_revenue inputs;
     revenue_growth_rates := rates;
     profit_margin := profit_margin inputs;
     tax_rate := tax_rate inputs;
     reinvestment_rate := reinvestment_rate inputs;
     discount_rate := discount_rate inputs;
     terminal_growth_rate := terminal_growth_rate inputs;
     forecast_periods := forecast_periods inputs |}.

Definition set_forecast_periods (n : Z) (inputs : DCFInputs) : DCFInputs :=
  {| current_revenue := current_revenue inputs;
     revenue_growth_rates := revenue_growth_rates inputs;
     profit_margin := profit_margin inputs;
     tax_rate := tax_rate inputs;
     reinvestment_rate := reinvestment_rate inputs;
     discount_rate := discount_rate inputs;
     terminal_growth_rate := terminal_growth_rate inputs;
     forecast_periods := n |}.

(** Two growth rates for a forecast of three years. *)
Definition short_inputs : DCFInputs :=
  {| current_revenue := 100;
     revenue_growth_rates := [0.2; 0.1];
     profit_margin := 0.5;
     tax_rate := 0.25;
     reinvestment_rate := 0.2;
     discount_rate := 0.1;
     terminal_growth_rate := 0.03;
     forecast_periods := 3 |}.

(** No growth rate at all, and a discount rate below the terminal growth. *)
Definition empty_inputs : DCFInputs :=
  {| current_revenue := 100;
     revenue_growth_rates := [];
     profit_margin := 0.5;
     tax_rate := 0.25;
     reinvestment_rate := 0.2;
     discount_rate := 0.03;
     terminal_growth_rate := 0.05;
     forecast_periods := 1 |}.

(** ** The explanation text *)

(** The renderings the f-strings rely on.  They turn floats into decimal
    text, which the rational model does not fix, so they are parameters. *)
Record Formats : Type := mkFormats {
  money : Q -> string;         (* f"{x:,.2f}" *)
  fixed2 : Q -> string;        (* f"{x:.2f}" *)
  percent2 : Q -> string;      (* f"{x:.2%}" *)
  decimal : Z -> string;       (* f"{i}" *)
  dumps : DCFInputs -> string  (* json.dumps(asdict(inputs), indent=2) *)
}.

Definition newline : string := String "010"%char EmptyString.

(** A [for] loop that appends one line per element. *)
Definition append_each {A : Type} (line : A -> string) (xs : list A)
           (lines : list string) : list string :=
  fold_left (fun acc x => acc ++ [line x]) xs lines.

(** The list [explanation_lines] at the end of [dcf_valuation], from the
    local variables it is built from. *)
Definition explanation_lines (F : Formats) (inputs : DCFInputs)
           (growths revenues fcfs discounted_fcfs : list Q)
           (last_fcf tv pv_tv ev : Q) : list string :=
  let lines : list string := [] in
  let lines := lines ++ ["Valuation method: Discounted Cash Flow (DCF) using projected revenues and a Gordon Growth terminal value."%string] in
  let lines := lines ++ [""%string] in
  let lines := lines ++ ["Inputs summary:"%string] in
  let lines := lines ++ [dumps F inputs] in
  let lines := lines ++ [""%string] in
  let lines := lines ++ ["Step 1 — Revenue projections:"%string] in
  let lines :=
    append_each
      (fun '(i, (g, rev)) =>
         (" Year " ++ decimal F i ++ ": applied growth " ++ fixed2 F (g * 100)
          ++ "% to previous revenue. Projected revenue = " ++ money F rev
          ++ ".")%string)
      (enumerate (combine growths revenues) 1) lines in
  let lines := lines ++ [""%string] in
  let lines := lines ++ ["Step 2 — Free Cash Flow (FCF) projections:"%string] in
  let lines := lines ++ [" We calculate FCF as: FCF = Revenue × profit_margin × (1 - reinvestment_rate)."%string] in
  let lines :=
    append_each
      (fun '(i, (rev, fcf)) =>
         (" Year " ++ decimal F i ++ ": FCF = " ++ money F rev ++ " × "
          ++ percent2 F (profit_margin inputs) ++ " × (1 - "
          ++ percent2 F (reinvestment_rate inputs) ++ ") = " ++ money F fcf
          ++ ".")%string)
      (enumerate (combine revenues fcfs) 1) lines in
  let lines := lines ++ [""%string] in
  let lines := lines ++ ["Step 3 — Discount projected FCFs:"%string] in
  let lines := lines ++ [(" We discount each year's FCF to present value using discount rate = " ++ percent2 F (discount_rate inputs) ++ " (PV = FCF / (1+rate)^t).")%string] in
  let lines :=
    append_each
      (fun '(i, (cf, pv)) =>
         (" Year " ++ decimal F i ++ ": Discounted FCF = " ++ money F cf
          ++ " / (1 + " ++ percent2 F (discount_rate inputs) ++ ")^"
          ++ decimal F i ++ " = " ++ money F pv ++ ".")%string)
      (enumerate (combine fcfs discounted_fcfs) 1) lines in
  let lines := lines ++ [""%string] in
  let lines := lines ++ ["Step 4 — Terminal value (Gordon Growth):"%string] in
  let lines := lines ++ [" We estimate a terminal value at the end of the explicit forecast using the Gordon Growth model:"%string] in
  let lines := lines ++ [" TV = Last projected FCF × (1 + terminal_growth) / (discount_rate - terminal_growth)"%string] in
  let lines := lines ++ [(" Last FCF = " ++ money F last_fcf ++ "; terminal growth = " ++ percent2 F (terminal_growth_rate inputs) ++ "; discount rate = " ++ percent2 F (discount_rate inputs) ++ ".")%string] in
  let lines := lines ++ [(" Terminal Value (undiscounted) = " ++ money F tv ++ ".")%string] in
  let lines := lines ++ [(" Discounted terminal value (PV) to today = " ++ money F pv_tv ++ ".")%string] in
  let lines := lines ++ [""%string] in
  let lines := lines ++ ["Step 5 — Enterprise value:"%string] in
  let lines := lines ++ [" Sum discounted FCFs + PV of terminal value = Enterprise Value (EV)."%string] in
  let lines := lines ++ [(" Sum discounted FCFs = " ++ money F (sum discounted_fcfs) ++ ".")%string] in
  let lines := lines ++ [(" PV(Terminal Value) = " ++ money F pv_tv ++ ".")%string] in
  let lines := lines ++ [(" Enterprise Value = " ++ money F ev ++ ".")%string] in
  let lines := lines ++ [""%string] in
  let lines := lines ++ ["Notes and caveats:"%string] in
  let lines := lines ++ [" - This is a simplified DCF designed for clear explanations. In practice you may model NOPAT, depreciation, changes in working capital, and capex separately."%string] in
  let lines := lines ++ [" - Terminal value is sensitive to terminal_growth and discount_rate; ensure terminal_growth < discount_rate and choose economically plausible growth."%string] in
  lines.

(** [dcf_valuation] as a whole: the numeric dict and the explanation. *)
Definition dcf_valuation_explained (F : Formats) (inputs : DCFInputs)
  : result (ValuationResult * string) :=
  let growths :=
    slice_to (revenue_growth_rates inputs) (forecast_periods inputs) in
  let revenues := project_revenues (current_revenue inputs) growths in
  let fcfs :=
    project_free_cash_flows revenues (profit_margin inputs)
                            (reinvestment_rate inputs) in
  discounted_fcfs <- discount_cash_flows fcfs (discount_rate inputs) ;;
  last_fcf <- last_item fcfs ;;
  tv <- terminal_value last_fcf (discount_rate inputs)
                       (terminal_growth_rate inputs) ;;
  d <- pow (1 + discount_rate inputs) (forecast_periods inputs) ;;
  pv_tv <- truediv tv d ;;
  let ev := sum discounted_fcfs + pv_tv in
  let numeric :=
    {| revenues := revenues;
       fcfs := fcfs;
       discounted_fcfs := discounted_fcfs;
       res_terminal_value := tv;
       pv_terminal_value := pv_tv;
       enterprise_value := ev |} in
  let explanation :=
    String.concat newline
      (explanation_lines F inputs growths revenues fcfs discounted_fcfs
                         last_fcf tv pv_tv ev) in
  Ok (numeric, explanation).

(** The lines of the explanation, from the inputs and the returned dict. *)
Definition lines_of (F : Formats) (inputs : DCFInputs) (res : ValuationResult)
  : list string :=
  explanation_lines F inputs (growths inputs) (revenues res) (fcfs res)
                    (discounted_fcfs res) (last (fcfs res) 0)
                    (res_terminal_value res) (pv_terminal_value res)
                    (enterprise_value res).

(** Renderings that only tag the kind of number, to run the text on. *)
Definition tag_formats : Formats :=
  {| money := fun _ => "<money>"%string;
     fixed2 := fun _ => "<fixed>"%string;
     percent2 := fun _ => "<percent>"%string;
     decimal := fun i =>
       match i with
       | 1%Z => "1" | 2%Z => "2" | 3%Z => "3" | 4%Z => "4" | 5%Z => "5"
       | _ => "<int>"
       end%string;
     dumps := fun _ => "<json>"%string |}.

(** ** The loops in closed form *)

Lemma rev_loop_acc (gs : list Q) (r : Q) (acc : list Q) :
  snd (fold_left
         (fun (st : Q * list Q) (g : Q) =>
            let '(r, revenues) := st in
            let r := r * (1 + g) in
            (r, revenues ++ [r]))
         gs (r, acc))
  = acc ++ compound r gs.
Proof.
  revert r acc.
  induction gs as [|g gs IH]; intros r acc; simpl.
  - now rewrite app_nil_r.
  - rewrite IH, <- app_assoc. reflexivity.
Qed.

Lemma project_revenues_compound (r : Q) (gs : list Q) :
  project_revenues r gs = compound r gs.
Proof. unfold project_revenues. apply (rev_loop_acc gs r []). Qed.

Lemma fcf_loop_acc (margin reinv : Q) (revs acc : list Q) :
  fold_left (fun (fcfs : list Q) (rev : Q) =>
               fcfs ++ [rev * margin * (1 - reinv)]) revs acc
  = acc ++ map (fun rev => rev * margin * (1 - reinv)) revs.
Proof.
  revert acc.
  induction revs as [|x revs IH]; intros acc; simpl.
  - now rewrite app_nil_r.
  - rewrite IH, <- app_assoc. reflexivity.
Qed.

Lemma project_free_cash_flows_map (revs : list Q) (margin reinv : Q) :
  project_free_cash_flows revs margin reinv
  = map (fun rev => rev * margin * (1 - reinv)) revs.
Proof. unfold project_free_cash_flows. apply (fcf_loop_acc margin reinv revs []). Qed.


Lemma compound_length (r : Q) (gs : list Q) :
  length (compound r gs) = length gs.
Proof.
  revert r. induction gs as [|g gs IH]; intros r; simpl; [|rewrite IH]; reflexivity.
Qed.

Lemma enumerate_length {A : Type} (l : list A) (k : Z) :
  length (enumerate l k) = length l.
Proof.
  revert k. induction l as [|x l IH]; intros k; simpl; [|rewrite IH]; reflexivity.
Qed.

Lemma enumerate_nth_error {A : Type} (l : list A) (k : Z) (n : nat) :
  nth_error (enumerate l k) n
  = option_map (fun x => ((k + Z.of_nat n)%Z, x)) (nth_error l n).
Proof.
  revert k n. induction l as [|x l IH]; intros k [|n]; simpl; try reflexivity.
  - now rewrite Z.add_0_r.
  - rewrite IH. destruct (nth_error l n); simpl; [|reflexivity].
    do 2 f_equal. lia.
Qed.

Lemma float_overflow_above_one : 1 < float_overflow.
Proof. vm_compute. reflexivity. Qed.

Lemma float_underflow_below_one : float_underflow < 1.
Proof. vm_compute. reflexivity. Qed.

Lemma float_underflow_nonneg : 0 <= float_underflow.
Proof. vm_compute. discriminate. Qed.

(** The outcomes of [**] next to the plain power. *)
Example pow_overflows : pow (1 + 1e200) 2 = Raise OverflowError.
Proof. vm_compute. reflexivity. Qed.

Example pow_underflows : pow 1e-200 2 = Ok 0.
Proof. vm_compute. reflexivity. Qed.

Example pow_zero_negative : pow 0 (-1) = Raise ZeroDivisionError.
Proof. vm_compute. reflexivity. Qed.

Example pow_in_range_example : pow (1 + 0.1) 5 = Ok ((1 + 0.1) ^ 5).
Proof. vm_compute. reflexivity. Qed.

(** A power that is returned and is not 0.0 is the power. *)
Lemma pow_ok_inv (b : Q) (e : Z) (p : Q) :
  pow b e = Ok p -> ~ p == 0 -> p = b ^ e.
Proof.
  unfold pow.
  destruct (Qeq_bool b 0 && (e <? 0)%Z); [discriminate|].
  destruct (Qle_bool float_overflow (Qabs (b ^ e))); [discriminate|].
  destruct (Qle_bool (Qabs (b ^ e)) float_underflow);
    intros H Hp; injection H as <-; [|reflexivity].
  exfalso. apply Hp. reflexivity.
Qed.

Lemma pow_raises (b : Q) (e : Z) (x : exn) :
  pow b e = Raise x -> x = ZeroDivisionError \/ x = OverflowError.
Proof.
  unfold pow.
  destruct (Qeq_bool b 0 && (e <? 0)%Z); [intros H; injection H; auto|].
  destruct (Qle_bool float_overflow (Qabs (b ^ e))); [intros H; injection H; auto|].
  destruct (Qle_bool (Qabs (b ^ e)) float_underflow); discriminate.
Qed.

Lemma pow_in_range (b : Q) (e : Z) :
  Qabs (b ^ e) < float_overflow -> float_underflow < Qabs (b ^ e) ->
  pow b e = Ok (b ^ e).
Proof.
  intros Hhi Hlo. unfold pow.
  destruct (Qeq_bool b 0 && (e <? 0)%Z) eqn:E.
  - apply andb_prop in E as [Eb Ee]. apply Qeq_bool_eq in Eb.
    apply Z.ltb_lt in Ee.
    assert (Hz : b ^ e == 0).
    { rewrite Eb. apply Qpower_0. lia. }
    rewrite Hz in Hlo. change (Qabs 0) with 0 in Hlo.
    pose proof float_underflow_nonneg. lra.
  - destruct (Qle_bool float_overflow (Qabs (b ^ e))) eqn:E1.
    + apply Qle_bool_imp_le in E1. lra.
    + destruct (Qle_bool (Qabs (b ^ e)) float_underflow) eqn:E2;
        [|reflexivity].
      apply Qle_bool_imp_le in E2. lra.
Qed.

(** A zero base with a positive exponent gives 0.0. *)
Lemma pow_zero_base (b : Q) (e : Z) :
  b == 0 -> (0 < e)%Z -> pow b e = Ok 0.
Proof.
  intros Hb He. unfold pow.
  assert (Hz : Qabs (b ^ e) == 0).
  { rewrite Hb, Qpower_0 by lia. reflexivity. }
  replace (e <? 0)%Z with false by (symmetry; apply Z.ltb_ge; lia).
  rewrite andb_false_r.
  destruct (Qle_bool float_overflow (Qabs (b ^ e))) eqn:E1.
  - apply Qle_bool_imp_le in E1. rewrite Hz in E1.
    pose proof float_overflow_above_one. lra.
  - destruct (Qle_bool (Qabs (b ^ e)) float_underflow) eqn:E2; [reflexivity|].
    assert (Hle : Qabs (b ^ e) <= float_underflow)
      by (rewrite Hz; apply float_underflow_nonneg).
    apply Qle_bool_iff in Hle. congruence.
Qed.

Lemma truediv_defined (a b : Q) : ~ b == 0 -> truediv a b = Ok (a / b).
Proof.
  intros Hb. unfold truediv.
  destruct (Qeq_bool b 0) eqn:E; [|reflexivity].
  apply Qeq_bool_eq in E. contradiction.
Qed.

Lemma truediv_zero (a b : Q) : b == 0 -> truediv a b = Raise ZeroDivisionError.
Proof.
  intros Hb. unfold truediv.
  destruct (Qeq_bool b 0) eqn:E; [reflexivity|].
  apply Qeq_bool_neq in E. contradiction.
Qed.

Lemma truediv_ok_inv (a b q : Q) :
  truediv a b = Ok q -> ~ b == 0 /\ q = a / b.
Proof.
  unfold truediv. destruct (Qeq_bool b 0) eqn:E; [discriminate|].
  intros H. injection H as <-. split; [now apply Qeq_bool_neq|reflexivity].
Qed.

Lemma truediv_raises (a b : Q) (x : exn) :
  truediv a b = Raise x -> x = ZeroDivisionError.
Proof.
  unfold truediv. destruct (Qeq_bool b 0); [|discriminate].
  intros H. injection H. auto.
Qed.

(** Whatever the discounting loop returns is the list of present values. *)
Lemma discount_loop_ok_inv (rate : Q) (cfs : list Q) (k : Z)
      (acc out : list Q) :
  for_each
    (fun (discounted : list Q) (ic : Z * Q) =>
       let '(i, cf) := ic in
       d <- pow (1 + rate) i ;;
       pv <- truediv cf d ;;
       Ok (discounted ++ [pv]))
    (enumerate cfs k) acc
  = Ok out ->
  out = acc ++ map (present_value rate) (enumerate cfs k).
Proof.
  revert k acc.
  induction cfs as [|cf cfs IH]; intros k acc; cbn [enumerate for_each map].
  - intros H. injection H as <-. now rewrite app_nil_r.
  - destruct (pow (1 + rate) k) as [p|x] eqn:P; cbn [bind]; [|discriminate].
    destruct (truediv cf p) as [pv|x] eqn:T; cbn [bind]; [|discriminate].
    intros H. apply IH in H. subst out.
    apply truediv_ok_inv in T as [Hp ->].
    apply pow_ok_inv in P; [|exact Hp]. subst p.
    rewrite <- app_assoc. reflexivity.
Qed.

Lemma discount_loop_raises (rate : Q) (cfs : list Q) (k : Z)
      (acc : list Q) (x : exn) :
  for_each
    (fun (discounted : list Q) (ic : Z * Q) =>
       let '(i, cf) := ic in
       d <- pow (1 + rate) i ;;
       pv <- truediv cf d ;;
       Ok (discounted ++ [pv]))
    (enumerate cfs k) acc
  = Raise x ->
  x = ZeroDivisionError \/ x = OverflowError.
Proof.
  revert k acc.
  induction cfs as [|cf cfs IH]; intros k acc; cbn [enumerate for_each].
  - discriminate.
  - destruct (pow (1 + rate) k) as [p|y] eqn:P; cbn [bind].
    + destruct (truediv cf p) as [pv|y] eqn:T; cbn [bind].
      * apply IH.
      * intros H. injection H as <-. left. now apply truediv_raises in T.
    + intros H. injection H as <-. now apply pow_raises in P.
Qed.

(** The loop returns when every power is returned and is not 0.0. *)
Lemma discount_loop_ok (rate : Q) (cfs : list Q) (k : Z) (acc : list Q) :
  (forall i, (i < length cfs)%nat ->
             exists p, pow (1 + rate) (Z.of_nat i + k) = Ok p /\ ~ p == 0) ->
  for_each
    (fun (discounted : list Q) (ic : Z * Q) =>
       let '(i, cf) := ic in
       d <- pow (1 + rate) i ;;
       pv <- truediv cf d ;;
       Ok (discounted ++ [pv]))
    (enumerate cfs k) acc
  = Ok (acc ++ map (present_value rate) (enumerate cfs k)).
Proof.
  revert k acc.
  induction cfs as [|cf cfs IH]; intros k acc H; cbn [enumerate for_each map].
  - now rewrite app_nil_r.
  - destruct (H 0%nat) as (p & P & Hp); [simpl; lia|].
    cbn [Z.of_nat Z.add] in P. rewrite P. cbn [bind].
    rewrite (truediv_defined _ _ Hp). cbn [bind].
    rewrite (pow_ok_inv _ _ _ P Hp).
    rewrite IH, <- app_assoc; [reflexivity|].
    intros i Hi. destruct (H (S i)) as (q & Q1 & Hq); [simpl; lia|].
    exists q. split; [|exact Hq].
    rewrite <- Q1. f_equal. lia.
Qed.

Lemma discount_cash_flows_ok_inv (cfs : list Q) (rate : Q) (out : list Q) :
  discount_cash_flows cfs rate = Ok out ->
  out = map (present_value rate) (enumerate cfs 1).
Proof. intros H. now apply discount_loop_ok_inv in H. Qed.

Lemma discount_cash_flows_nil (rate : Q) : discount_cash_flows [] rate = Ok [].
Proof. reflexivity. Qed.

Lemma discount_cash_flows_zero (cf : Q) (cfs : list Q) (rate : Q) :
  1 + rate == 0 ->
  discount_cash_flows (cf :: cfs) rate = Raise ZeroDivisionError.
Proof.
  intros Hr. unfold discount_cash_flows. cbn [enumerate for_each].
  rewrite (pow_zero_base _ 1 Hr) by lia. cbn [bind].
  rewrite truediv_zero by reflexivity. reflexivity.
Qed.

(** ** [dcf_valuation], case by case *)

Lemma last_item_last {A : Type} (l : list A) (d : A) :
  l <> [] -> last_item l = Ok (last l d).
Proof.
  destruct l as [|x l _] using rev_ind; [congruence|]. intros _.
  unfold last_item. rewrite rev_app_distr, last_last. reflexivity.
Qed.

Lemma last_item_nil_iff {A : Type} (l : list A) :
  last_item l = Raise IndexError <-> l = [].
Proof.
  split; [|intros ->; reflexivity].
  destruct l as [|x l _] using rev_ind; [reflexivity|].
  unfold last_item. rewrite rev_app_distr. discriminate.
Qed.

Lemma compound_nil_iff (r : Q) (gs : list Q) : compound r gs = [] <-> gs = [].
Proof. destruct gs; simpl; split; congruence. Qed.

Lemma map_nil_iff {A B : Type} (f : A -> B) (l : list A) : map f l = [] <-> l = [].
Proof. destruct l; simpl; split; congruence. Qed.

Lemma terminal_value_defined (last_fcf d g : Q) :
  g < d -> terminal_value last_fcf d g = Ok (last_fcf * (1 + g) / (d - g)).
Proof.
  intros Hlt. unfold terminal_value.
  destruct (Qle_bool d g) eqn:E.
  - apply Qle_bool_imp_le in E. lra.
  - rewrite truediv_defined by lra. reflexivity.
Qed.

Lemma terminal_value_raises (last_fcf d g : Q) :
  d <= g -> terminal_value last_fcf d g = Raise ValueError.
Proof.
  intros Hle. unfold terminal_value.
  apply Qle_bool_iff in Hle. now rewrite Hle.
Qed.

Lemma dcf_valuation_unfold (inputs : DCFInputs) :
  dcf_valuation inputs =
  let fcfs := fcfs (closed_form inputs) in
  discounted_fcfs <- discount_cash_flows fcfs (discount_rate inputs) ;;
  last_fcf <- last_item fcfs ;;
  tv <- terminal_value last_fcf (discount_rate inputs)
                       (terminal_growth_rate inputs) ;;
  d <- pow (1 + discount_rate inputs) (forecast_periods inputs) ;;
  pv_tv <- truediv tv d ;;
  Ok {| revenues := revenues (closed_form inputs);
        fcfs := fcfs;
        discounted_fcfs := discounted_fcfs;
        res_terminal_value := tv;
        pv_terminal_value := pv_tv;
        enterprise_value := sum discounted_fcfs + pv_tv |}.
Proof.
  unfold dcf_valuation, closed_form. fold (growths inputs). simpl.
  rewrite project_revenues_compound, project_free_cash_flows_map.
  reflexivity.
Qed.

Lemma fcfs_nil_iff (inputs : DCFInputs) :
  fcfs (closed_form inputs) = [] <-> growths inputs = [].
Proof. simpl. rewrite map_nil_iff. apply compound_nil_iff. Qed.

Lemma dcf_valuation_index_error (inputs : DCFInputs) :
  growths inputs = [] -> dcf_valuation inputs = Raise IndexError.
Proof.
  intros Hg. rewrite dcf_valuation_unfold.
  apply fcfs_nil_iff in Hg. cbv zeta. rewrite Hg. reflexivity.
Qed.

Lemma dcf_valuation_zero_division (inputs : DCFInputs) :
  growths inputs <> [] -> 1 + discount_rate inputs == 0 ->
  dcf_valuation inputs = Raise ZeroDivisionError.
Proof.
  intros Hg Hd. rewrite dcf_valuation_unfold. cbv zeta.
  rewrite <- fcfs_nil_iff in Hg.
  destruct (fcfs (closed_form inputs)) as [|cf cfs]; [congruence|].
  now rewrite discount_cash_flows_zero.
Qed.

Lemma dcf_valuation_value_error (inputs : DCFInputs) (ds : list Q) :
  growths inputs <> [] ->
  discount_cash_flows (fcfs (closed_form inputs)) (discount_rate inputs)
  = Ok ds ->
  discount_rate inputs <= terminal_growth_rate inputs ->
  dcf_valuation inputs = Raise ValueError.
Proof.
  intros Hg Hd Hle. rewrite dcf_valuation_unfold. cbv zeta.
  rewrite <- fcfs_nil_iff in Hg.
  rewrite Hd. cbn [bind].
  rewrite (last_item_last _ 0 Hg). cbn [bind].
  now rewrite terminal_value_raises.
Qed.

Lemma last_item_ok {A : Type} (l : list A) (x d : A) :
  last_item l = Ok x -> last l d = x.
Proof.
  destruct l as [|y l _] using rev_ind; [discriminate|].
  unfold last_item. rewrite rev_app_distr, last_last. cbn [rev app].
  congruence.
Qed.

Lemma terminal_value_inv (last_fcf d g : Q) :
  (d <= g /\ terminal_value last_fcf d g = Raise ValueError)
  \/ (g < d
      /\ terminal_value last_fcf d g = Ok (last_fcf * (1 + g) / (d - g))).
Proof.
  destruct (Qlt_le_dec g d) as [Hlt|Hle].
  - right. split; [exact Hlt|now apply terminal_value_defined].
  - left. split; [exact Hle|now apply terminal_value_raises].
Qed.

(** A result is the closed form, and the inputs then pass every check. *)
Lemma dcf_valuation_inv (inputs : DCFInputs) (res : ValuationResult) :
  dcf_valuation inputs = Ok res ->
  growths inputs <> [] /\ ~ 1 + discount_rate inputs == 0
  /\ terminal_growth_rate inputs < discount_rate inputs
  /\ res = closed_form inputs.
Proof.
  rewrite dcf_valuation_unfold. cbv zeta.
  destruct (discount_cash_flows _ _) as [ds|x] eqn:D; cbn [bind]; [|discriminate].
  destruct (last_item _) as [l|x] eqn:L; cbn [bind]; [|discriminate].
  destruct (terminal_value_inv l (discount_rate inputs)
                               (terminal_growth_rate inputs))
    as [[_ T]|[Hlt T]]; rewrite T; cbn [bind]; [discriminate|].
  destruct (pow _ _) as [p|x] eqn:P; cbn [bind]; [|discriminate].
  destruct (truediv _ p) as [pv|x] eqn:V; cbn [bind]; [|discriminate].
  intros H. injection H as <-.
  assert (Hf : fcfs (closed_form inputs) <> [])
    by (intros E; rewrite E in L; discriminate L).
  assert (Hd : ~ 1 + discount_rate inputs == 0).
  { intros E. destruct (fcfs (closed_form inputs)) as [|cf cfs]; [congruence|].
    rewrite (discount_cash_flows_zero _ _ _ E) in D. discriminate D. }
  split; [now rewrite <- fcfs_nil_iff|]. split; [exact Hd|].
  split; [exact Hlt|].
  apply discount_cash_flows_ok_inv in D. subst ds.
  apply (last_item_ok _ _ 0) in L. subst l.
  apply truediv_ok_inv in V as [Hp ->].
  apply pow_ok_inv in P; [|exact Hp]. subst p.
  reflexivity.
Qed.

(** What [dcf_valuation] raises, and at which statement. *)
Lemma dcf_valuation_raise_inv (inputs : DCFInputs) (x : exn) :
  dcf_valuation inputs = Raise x ->
  (growths inputs = [] /\ x = IndexError)
  \/ (growths inputs <> []
      /\ discount_cash_flows (fcfs (closed_form inputs)) (discount_rate inputs)
         = Raise x
      /\ (x = ZeroDivisionError \/ x = OverflowError))
  \/ (growths inputs <> []
      /\ (exists ds,
             discount_cash_flows (fcfs (closed_form inputs))
                                 (discount_rate inputs) = Ok ds)
      /\ discount_rate inputs <= terminal_growth_rate inputs
      /\ x = ValueError)
  \/ (growths inputs <> []
      /\ (exists ds,
             discount_cash_flows (fcfs (closed_form inputs))
                                 (discount_rate inputs) = Ok ds)
      /\ terminal_growth_rate inputs < discount_rate inputs
      /\ (x = ZeroDivisionError \/ x = OverflowError)).
Proof.
  destruct (growths inputs) as [|g0 gs] eqn:Hg.
  - rewrite (dcf_valuation_index_error _ Hg). intros H. injection H as <-.
    left. auto.
  - assert (Hne : growths inputs <> []) by (rewrite Hg; discriminate).
    rewrite <- Hg. clear Hg g0 gs.
    rewrite dcf_valuation_unfold. cbv zeta. intros H. right.
    destruct (discount_cash_flows _ _) as [ds|y] eqn:D; cbn [bind] in H.
    + right.
      rewrite (last_item_last _ 0) in H by (now rewrite fcfs_nil_iff).
      cbn [bind] in H.
      destruct (terminal_value_inv (last (fcfs (closed_form inputs)) 0)
                                   (discount_rate inputs)
                                   (terminal_growth_rate inputs))
        as [[Hle T]|[Hlt T]]; rewrite T in H; cbn [bind] in H.
      * injection H as <-. left. eauto.
      * right. split; [exact Hne|]. split; [eauto|].
        split; [exact Hlt|].
        destruct (pow _ _) as [p|y] eqn:P; cbn [bind] in H.
        -- destruct (truediv _ p) as [pv|y] eqn:V; cbn [bind] in H;
             [discriminate H|].
           injection H as <-. left. now apply truediv_raises in V.
        -- injection H as <-. now apply pow_raises in P.
    + injection H as <-. left.
      split; [exact Hne|]. split; [reflexivity|].
      now apply discount_loop_raises in D.
Qed.

(** ** Slicing *)

Lemma slice_to_all {A : Type} (l : list A) (n : Z) :
  (Z.of_nat (length l) <= n)%Z -> slice_to l n = l.
Proof.
  intros H. unfold slice_to.
  destruct (0 <=? n)%Z eqn:E; [|lia].
  apply firstn_all2. lia.
Qed.

Lemma slice_to_nil_iff {A : Type} (l : list A) (n : Z) :
  slice_to l n = []
  <-> l = [] \/ n = 0%Z \/ (n <= - Z.of_nat (length l))%Z.
Proof.
  unfold slice_to. destruct l as [|x l].
  - rewrite !firstn_nil. destruct (0 <=? n)%Z; tauto.
  - destruct (0 <=? n)%Z eqn:E.
    + destruct (Z.to_nat n) as [|k] eqn:K; simpl.
      * split; [right; left; lia|reflexivity].
      * split; [discriminate|]. intros [H|[H|H]]; [discriminate|lia|].
        simpl in H. lia.
    + destruct (Z.to_nat (Z.of_nat (length (x :: l)) + n)) as [|k] eqn:K.
      * split; [right; right; lia|reflexivity].
      * cbn [firstn]. split; [discriminate|].
        intros [H|[H|H]]; [discriminate|lia|lia].
Qed.

Lemma slice_to_firstn {A : Type} (l : list A) (n : Z) :
  (0 <= n)%Z -> slice_to l n = firstn (Z.to_nat n) l.
Proof.
  intros H. unfold slice_to.
  destruct (0 <=? n)%Z eqn:E; [reflexivity|lia].
Qed.

Lemma slice_to_length {A : Type} (l : list A) (n : Z) :
  (0 <= n <= Z.of_nat (length l))%Z -> length (slice_to l n) = Z.to_nat n.
Proof.
  intros H. rewrite slice_to_firstn by lia.
  rewrite length_firstn. lia.
Qed.

Lemma closed_form_lengths (inputs : DCFInputs) :
  length (revenues (closed_form inputs)) = length (growths inputs)
  /\ length (fcfs (closed_form inputs)) = length (growths inputs)
  /\ length (discounted_fcfs (closed_form inputs)) = length (growths inputs).
Proof.
  simpl.
  rewrite !length_map, enumerate_length, !length_map, compound_length.
  auto.
Qed.

Lemma not_minus_one (d : Q) : ~ d == -1 <-> ~ 1 + d == 0.
Proof. split; intros H E; apply H; lra. Qed.

(** ** Positions in the projected sequences *)

Lemma compound_nth_succ (gs : list Q) (r : Q) (k : nat) (g : Q) :
  nth_error gs (S k) = Some g ->
  exists prev,
    nth_error (compound r gs) k = Some prev
    /\ nth_error (compound r gs) (S k) = Some (prev * (1 + g)).
Proof.
  revert r k. induction gs as [|g0 gs IH]; intros r k H; [discriminate|].
  destruct k as [|k]; simpl in H.
  - destruct gs as [|g1 gs]; [discriminate|]. injection H as ->.
    exists (r * (1 + g0)). split; reflexivity.
  - destruct (IH (r * (1 + g0)) k H) as (prev & H1 & H2).
    exists prev. split; assumption.
Qed.

Lemma compound_monotone (gs : list Q) (r : Q) :
  0 < r ->
  (forall g, In g gs -> 0 <= g) ->
  forall k prev next,
    nth_error (r :: compound r gs) k = Some prev ->
    nth_error (r :: compound r gs) (S k) = Some next ->
    prev <= next.
Proof.
  revert r. induction gs as [|g gs IH]; intros r Hr Hgs k prev next Hp Hn.
  - destruct k; discriminate.
  - assert (Hg : 0 <= g) by (apply Hgs; now left).
    assert (Hrg : 0 <= r * g) by (apply Qmult_le_0_compat; lra).
    destruct k as [|k].
    + simpl in Hp, Hn. injection Hp as <-. injection Hn as <-. lra.
    + apply (IH (r * (1 + g))) with (k := k).
      * lra.
      * intros g' Hin. apply Hgs. now right.
      * exact Hp.
      * exact Hn.
Qed.

Lemma dcf_valuation_same_growths (inputs : DCFInputs) (rates : list Q) :
  growths (set_growth_rates rates inputs) = growths inputs ->
  dcf_valuation (set_growth_rates rates inputs) = dcf_valuation inputs.
Proof.
  intros H. unfold dcf_valuation.
  change (slice_to (revenue_growth_rates (set_growth_rates rates inputs))
                   (forecast_periods (set_growth_rates rates inputs)))
    with (growths (set_growth_rates rates inputs)).
  rewrite H. reflexivity.
Qed.

(** ** The claims *)

(** C1, as stated, fails: with two growth rates and [forecast_periods = 3]
    the valuation returns a result; no exception of any class is raised. *)
Lemma short_rates_return_a_result :
  (Z.of_nat (length (revenue_growth_rates short_inputs))
   < forecast_periods short_inputs)%Z
  /\ dcf_valuation short_inputs = Ok (closed_form short_inputs)
  /\ (forall e, dcf_valuation short_inputs <> Raise e).
Proof.
  assert (E : dcf_valuation short_inputs = Ok (closed_form short_inputs))
    by (vm_compute; reflexivity).
  split; [reflexivity|]. split; [exact E|].
  intros e. rewrite E. discriminate.
Qed.

(** C1, amended: when [revenue_growth_rates] is shorter than
    [forecast_periods] the valuation makes no length check.  The slice is the
    whole sequence; if it is empty the valuation raises [IndexError];
    otherwise the valuation goes on as for any other input, and whenever it
    returns a result the three sequences of the result have the length of
    [revenue_growth_rates], which is less than [forecast_periods]. *)
Theorem dcf_valuation_short_rates (inputs : DCFInputs) :
  (Z.of_nat (length (revenue_growth_rates inputs)) < forecast_periods inputs)%Z ->
  growths inputs = revenue_growth_rates inputs
  /\ (revenue_growth_rates inputs = [] ->
      dcf_valuation inputs = Raise IndexError)
  /\ (forall res,
        dcf_valuation inputs = Ok res ->
        length (revenues res) = length (revenue_growth_rates inputs)
        /\ length (fcfs res) = length (revenue_growth_rates inputs)
        /\ length (discounted_fcfs res) = length (revenue_growth_rates inputs)).
Proof.
  intros Hshort.
  assert (Hg : growths inputs = revenue_growth_rates inputs)
    by (apply slice_to_all; lia).
  split; [exact Hg|]. split.
  - intros Hnil. apply dcf_valuation_index_error. now rewrite Hg.
  - intros res H. apply dcf_valuation_inv in H as (_ & _ & _ & ->).
    rewrite <- Hg. apply closed_form_lengths.
Qed.

Lemma dcf_valuation_short_rates_witness :
  growths short_inputs = revenue_growth_rates short_inputs
  /\ exists res,
       dcf_valuation short_inputs = Ok res
       /\ length (revenues res) = 2%nat
       /\ length (fcfs res) = 2%nat
       /\ length (discounted_fcfs res) = 2%nat.
Proof.
  destruct (dcf_valuation_short_rates short_inputs) as (G & _ & R).
  - simpl. lia.
  - split; [exact G|].
    exists (closed_form short_inputs).
    assert (E : dcf_valuation short_inputs = Ok (closed_form short_inputs))
      by (vm_compute; reflexivity).
    split; [exact E|]. exact (R _ E).
Defined.

(** C2, as stated, fails: with no growth rate, [discount_rate = 0.03] and
    [terminal_growth_rate = 0.05] the precondition is violated, yet the
    exception is the [IndexError] of [fcfs[-1]], raised before
    [terminal_value] is called. *)
Lemma violated_precondition_without_value_error :
  discount_rate empty_inputs <= terminal_growth_rate empty_inputs
  /\ dcf_valuation empty_inputs = Raise IndexError
  /\ ~ (dcf_valuation empty_inputs = Raise ValueError
        <-> discount_rate empty_inputs <= terminal_growth_rate empty_inputs).
Proof.
  assert (L : discount_rate empty_inputs <= terminal_growth_rate empty_inputs)
    by (simpl; lra).
  split; [exact L|]. split; [reflexivity|].
  intros [_ H]. specialize (H L). discriminate H.
Qed.

(** C2, amended: [terminal_value] raises [ValueError] exactly when
    [discount_rate <= terminal_growth] (equality included), the check coming
    before the division, and otherwise returns the quotient; [dcf_valuation]
    raises [ValueError] exactly when the statements before the call raise
    nothing, that is when the truncated growth rates are non-empty and the
    discounting loop returns, and [discount_rate <= terminal_growth_rate]. *)
Theorem value_error_iff (inputs : DCFInputs) :
  (forall last_fcf d g,
      (terminal_value last_fcf d g = Raise ValueError <-> d <= g)
      /\ (~ d <= g ->
          terminal_value last_fcf d g = Ok (last_fcf * (1 + g) / (d - g))))
  /\ (dcf_valuation inputs = Raise ValueError
      <-> growths inputs <> []
          /\ (exists discounted,
                 discount_cash_flows
                   (project_free_cash_flows
                      (project_revenues (current_revenue inputs)
                                        (growths inputs))
                      (profit_margin inputs) (reinvestment_rate inputs))
                   (discount_rate inputs)
                 = Ok discounted)
          /\ discount_rate inputs <= terminal_growth_rate inputs).
Proof.
  split.
  - intros last_fcf d g.
    destruct (terminal_value_inv last_fcf d g) as [[Hle T]|[Hlt T]];
      rewrite T; split.
    + tauto.
    + intros Hn. contradiction.
    + split; [discriminate|lra].
    + reflexivity.
  - assert (F : project_free_cash_flows
                  (project_revenues (current_revenue inputs) (growths inputs))
                  (profit_margin inputs) (reinvestment_rate inputs)
                = fcfs (closed_form inputs)).
    { rewrite project_revenues_compound, project_free_cash_flows_map.
      reflexivity. }
    rewrite F. split.
    + intros H.
      destruct (dcf_valuation_raise_inv _ _ H)
        as [[_ E]|[(_ & _ & [E|E])|[(G & D & L & _)|(_ & _ & _ & [E|E])]]];
        try discriminate E.
      auto.
    + intros (G & [ds D] & L). now apply (dcf_valuation_value_error _ ds).
Qed.

(** C3: on success, [pv_terminal_value] is [terminal_value] over
    [(1 + discount_rate) ^ forecast_periods], and [enterprise_value] is
    [sum(discounted_fcfs) + pv_terminal_value], built from the very fields
    of the result. *)
Theorem enterprise_value_identity (inputs : DCFInputs) (res : ValuationResult) :
  dcf_valuation inputs = Ok res ->
  pv_terminal_value res
  = res_terminal_value res / (1 + discount_rate inputs) ^ forecast_periods inputs
  /\ enterprise_value res = sum (discounted_fcfs res) + pv_terminal_value res.
Proof.
  intros H. apply dcf_valuation_inv in H as (_ & _ & _ & ->).
  split; reflexivity.
Qed.

Lemma enterprise_value_identity_witness :
  exists res,
    dcf_valuation example_inputs = Ok res
    /\ pv_terminal_value res = res_terminal_value res / (1 + 0.10) ^ 5
    /\ enterprise_value res = sum (discounted_fcfs res) + pv_terminal_value res.
Proof.
  exists (closed_form example_inputs).
  assert (E : dcf_valuation example_inputs = Ok (closed_form example_inputs))
    by (vm_compute; reflexivity).
  split; [exact E|].
  exact (enterprise_value_identity example_inputs _ E).
Defined.

(** C4: [project_revenues] returns one revenue per growth rate; the first is
    [current_revenue * (1 + rate[0])] and every later one is the previous
    revenue times [1 + rate[k]].  The function is total: no rate, negative or
    above 1, makes it raise. *)
Theorem project_revenues_compounds (current_revenue : Q) (growth_rates : list Q) :
  length (project_revenues current_revenue growth_rates) = length growth_rates
  /\ nth_error (project_revenues current_revenue growth_rates) 0
     = option_map (fun g => current_revenue * (1 + g)) (nth_error growth_rates 0)
  /\ forall k g,
       nth_error growth_rates (S k) = Some g ->
       exists prev,
         nth_error (project_revenues current_revenue growth_rates) k = Some prev
         /\ nth_error (project_revenues current_revenue growth_rates) (S k)
            = Some (prev * (1 + g)).
Proof.
  rewrite project_revenues_compound. split; [apply compound_length|]. split.
  - destruct growth_rates; reflexivity.
  - intros k g. apply compound_nth_succ.
Qed.

(** C5: the free cash flows are, element by element,
    [revenue * margin * (1 - reinvestment_rate)], for every margin and every
    reinvestment rate; and the valuation does not read [tax_rate]: changing
    it changes nothing in what [dcf_valuation] returns or raises. *)
Theorem free_cash_flows_elementwise
        (revenues : list Q) (margin reinvestment_rate : Q) :
  project_free_cash_flows revenues margin reinvestment_rate
  = map (fun rev => rev * margin * (1 - reinvestment_rate)) revenues
  /\ forall (inputs : DCFInputs) (t : Q),
       dcf_valuation (set_tax_rate t inputs) = dcf_valuation inputs.
Proof.
  split; [apply project_free_cash_flows_map|].
  intros inputs t. reflexivity.
Qed.

(** C6, as stated, fails: [rate = 1e200] is not -1, yet with two cash flows
    the second power, [(1 + 1e200) ** 2], is out of the float range and
    [discount_cash_flows] raises [OverflowError]. *)
Lemma large_rate_overflows :
  ~ 1e200 == -1
  /\ discount_cash_flows [1; 1] 1e200 = Raise OverflowError.
Proof.
  split.
  - intros H. vm_compute in H. discriminate H.
  - vm_compute. reflexivity.
Qed.

(** C6, amended: when every power [(1 + rate) ** i], for [i] from 1 to the
    number of cash flows, is returned and is not 0.0, [discount_cash_flows]
    returns as many present values as there are cash flows, the one at
    position [i] (counted from 0) being
    [cash_flow / (1 + rate) ^ (i + 1)]. *)
Theorem discount_cash_flows_spec (cash_flows : list Q) (rate : Q) :
  (forall i, (i < length cash_flows)%nat ->
             exists p, pow (1 + rate) (Z.of_nat i + 1) = Ok p /\ ~ p == 0) ->
  exists discounted,
    discount_cash_flows cash_flows rate = Ok discounted
    /\ length discounted = length cash_flows
    /\ forall i cf,
         nth_error cash_flows i = Some cf ->
         nth_error discounted i = Some (cf / (1 + rate) ^ (Z.of_nat i + 1)).
Proof.
  intros Hp.
  exists (map (present_value rate) (enumerate cash_flows 1)).
  split; [exact (discount_loop_ok rate cash_flows 1 [] Hp)|]. split.
  - now rewrite length_map, enumerate_length.
  - intros i cf Hcf.
    rewrite nth_error_map, enumerate_nth_error, Hcf. cbn [option_map].
    unfold present_value. cbn [fst snd]. now rewrite Z.add_comm.
Qed.

Lemma discount_cash_flows_spec_witness :
  exists discounted,
    discount_cash_flows [110; 121] 0.1 = Ok discounted
    /\ length discounted = 2%nat
    /\ forall i cf,
         nth_error [110; 121] i = Some cf ->
         nth_error discounted i = Some (cf / (1 + 0.1) ^ (Z.of_nat i + 1)).
Proof.
  apply (discount_cash_flows_spec [110; 121] 0.1).
  intros i Hi.
  destruct i as [|[|i]]; [| |simpl in Hi; lia].
  - exists ((1 + 0.1) ^ 1). split; [vm_compute; reflexivity|].
    intros H. vm_compute in H. discriminate H.
  - exists ((1 + 0.1) ^ 2). split; [vm_compute; reflexivity|].
    intros H. vm_compute in H. discriminate H.
Defined.

(** C7: on success, [terminal_value] of the result is
    [last_fcf * (1 + terminal_growth_rate) / (discount_rate - terminal_growth_rate)]
    with [last_fcf = fcfs[-1]]; two successful valuations whose last free
    cash flows are equal and whose two rates are equal have equal terminal
    values, whatever their other inputs. *)
Theorem terminal_value_of_last_fcf (inputs : DCFInputs) (res : ValuationResult) :
  dcf_valuation inputs = Ok res ->
  (exists last_fcf,
      last_item (fcfs res) = Ok last_fcf
      /\ res_terminal_value res
         = last_fcf * (1 + terminal_growth_rate inputs)
           / (discount_rate inputs - terminal_growth_rate inputs))
  /\ forall inputs' res' last_fcf last_fcf',
       dcf_valuation inputs' = Ok res' ->
       last_item (fcfs res) = Ok last_fcf ->
       last_item (fcfs res') = Ok last_fcf' ->
       last_fcf' == last_fcf ->
       discount_rate inputs' == discount_rate inputs ->
       terminal_growth_rate inputs' == terminal_growth_rate inputs ->
       res_terminal_value res' == res_terminal_value res.
Proof.
  intros H. apply dcf_valuation_inv in H as (G & _ & _ & ->).
  assert (F : fcfs (closed_form inputs) <> []) by (now rewrite fcfs_nil_iff).
  split.
  - exists (last (fcfs (closed_form inputs)) 0).
    split; [now apply last_item_last|reflexivity].
  - intros inputs' res' last_fcf last_fcf' H' Hl Hl' Hlast Hd Hg.
    apply dcf_valuation_inv in H' as (G' & _ & _ & ->).
    assert (F' : fcfs (closed_form inputs') <> []) by (now rewrite fcfs_nil_iff).
    rewrite (last_item_last _ 0 F) in Hl. injection Hl as Hl.
    rewrite (last_item_last _ 0 F') in Hl'. injection Hl' as Hl'.
    cbn [closed_form res_terminal_value].
    cbn [closed_form fcfs] in Hl, Hl'.
    rewrite Hl, Hl', Hlast, Hd, Hg. reflexivity.
Qed.

Lemma terminal_value_of_last_fcf_witness :
  exists last_fcf,
    last_item (fcfs (closed_form example_inputs)) = Ok last_fcf
    /\ res_terminal_value (closed_form example_inputs)
       = last_fcf * (1 + 0.03) / (0.10 - 0.03).
Proof.
  assert (E : dcf_valuation example_inputs = Ok (closed_form example_inputs))
    by (vm_compute; reflexivity).
  exact (proj1 (terminal_value_of_last_fcf example_inputs _ E)).
Defined.

(** C8: with [1 <= forecast_periods <= len(revenue_growth_rates)], a
    successful valuation returns [revenues], [fcfs] and [discounted_fcfs] of
    length [forecast_periods], and any other growth-rate sequence with the
    same first [forecast_periods] entries gives the same result. *)
Theorem dcf_valuation_truncates (inputs : DCFInputs) (res : ValuationResult) :
  (1 <= forecast_periods inputs)%Z ->
  (forecast_periods inputs
   <= Z.of_nat (length (revenue_growth_rates inputs)))%Z ->
  dcf_valuation inputs = Ok res ->
  Z.of_nat (length (revenues res)) = forecast_periods inputs
  /\ Z.of_nat (length (fcfs res)) = forecast_periods inputs
  /\ Z.of_nat (length (discounted_fcfs res)) = forecast_periods inputs
  /\ forall rates,
       firstn (Z.to_nat (forecast_periods inputs)) rates
       = firstn (Z.to_nat (forecast_periods inputs)) (revenue_growth_rates inputs) ->
       dcf_valuation (set_growth_rates rates inputs) = Ok res.
Proof.
  intros H1 Hlen H.
  assert (L : length (growths inputs) = Z.to_nat (forecast_periods inputs))
    by (apply slice_to_length; lia).
  pose proof H as H'.
  apply dcf_valuation_inv in H' as (_ & _ & _ & ->).
  destruct (closed_form_lengths inputs) as (L1 & L2 & L3).
  rewrite L1, L2, L3, L.
  repeat split; try lia.
  intros rates Hrates. rewrite <- H.
  apply dcf_valuation_same_growths.
  unfold growths. cbn [set_growth_rates revenue_growth_rates forecast_periods].
  rewrite !slice_to_firstn by lia. exact Hrates.
Qed.

Lemma dcf_valuation_truncates_witness :
  exists res,
    dcf_valuation (set_growth_rates [0.2; 0.1; 0.9; 0.9] short_inputs) = Ok res
    /\ Z.of_nat (length (revenues res)) = 3%Z
    /\ dcf_valuation (set_growth_rates [0.2; 0.1; 0.9; -0.5; 7] short_inputs)
       = Ok res.
Proof.
  exists (closed_form (set_growth_rates [0.2; 0.1; 0.9; 0.9] short_inputs)).
  assert (E : dcf_valuation (set_growth_rates [0.2; 0.1; 0.9; 0.9] short_inputs)
              = Ok (closed_form (set_growth_rates [0.2; 0.1; 0.9; 0.9] short_inputs)))
    by (vm_compute; reflexivity).
  destruct (dcf_valuation_truncates
              (set_growth_rates [0.2; 0.1; 0.9; 0.9] short_inputs) _
              ltac:(simpl; lia) ltac:(simpl; lia) E) as (L & _ & _ & X).
  split; [exact E|]. split; [exact L|].
  exact (X [0.2; 0.1; 0.9; -0.5; 7] eq_refl).
Defined.

(** C9: with [current_revenue > 0] and every growth rate of the used prefix
    non-negative, each projected revenue is at least the one before it, and
    the first is at least [current_revenue]. *)
Theorem project_revenues_monotone (inputs : DCFInputs) :
  0 < current_revenue inputs ->
  (forall g, In g (growths inputs) -> 0 <= g) ->
  forall k prev next,
    nth_error (current_revenue inputs
               :: project_revenues (current_revenue inputs) (growths inputs)) k
    = Some prev ->
    nth_error (current_revenue inputs
               :: project_revenues (current_revenue inputs) (growths inputs)) (S k)
    = Some next ->
    prev <= next.
Proof.
  intros Hr Hg. rewrite project_revenues_compound.
  now apply compound_monotone.
Qed.

Lemma project_revenues_monotone_witness :
  100000000 <= 100000000 * (1 + 0.20)
  /\ 100000000 * (1 + 0.20) <= 100000000 * (1 + 0.20) * (1 + 0.15).
Proof.
  assert (Hr : 0 < current_revenue example_inputs) by (simpl; lra).
  assert (Hg : forall g, In g (growths example_inputs) -> 0 <= g).
  { intros g Hin. simpl in Hin.
    repeat (destruct Hin as [<-|Hin]; [lra|]). destruct Hin. }
  split.
  - exact (project_revenues_monotone example_inputs Hr Hg 0%nat _ _ eq_refl eq_refl).
  - exact (project_revenues_monotone example_inputs Hr Hg 1%nat _ _ eq_refl eq_refl).
Defined.

(** C10: when [revenue_growth_rates[:forecast_periods]] is empty, the
    projections and the discounting run on empty lists without raising, and
    [dcf_valuation] then raises the [IndexError] of [fcfs[-1]], whatever the
    two rates are. *)
Theorem empty_growths_index_error (inputs : DCFInputs) :
  growths inputs = [] ->
  project_revenues (current_revenue inputs) (growths inputs) = []
  /\ project_free_cash_flows [] (profit_margin inputs) (reinvestment_rate inputs)
     = []
  /\ discount_cash_flows [] (discount_rate inputs) = Ok []
  /\ last_item (@nil Q) = Raise IndexError
  /\ dcf_valuation inputs = Raise IndexError.
Proof.
  intros Hg. rewrite Hg.
  repeat split. now apply dcf_valuation_index_error.
Qed.

Lemma empty_growths_index_error_witness :
  revenue_growth_rates empty_inputs = []
  /\ (1 <= forecast_periods empty_inputs)%Z
  /\ dcf_valuation empty_inputs = Raise IndexError.
Proof.
  split; [reflexivity|]. split; [simpl; lia|].
  apply (empty_growths_index_error empty_inputs). reflexivity.
Defined.

(** ** Further properties of the pipeline *)

Lemma compound_firstn (n : nat) (gs : list Q) (r : Q) :
  compound r (firstn n gs) = firstn n (compound r gs).
Proof.
  revert gs r. induction n as [|n IH]; intros [|g gs] r; simpl; try reflexivity.
  now rewrite IH.
Qed.

Lemma enumerate_firstn {A : Type} (n : nat) (l : list A) (k : Z) :
  enumerate (firstn n l) k = firstn n (enumerate l k).
Proof.
  revert l k. induction n as [|n IH]; intros [|x l] k; simpl; try reflexivity.
  now rewrite IH.
Qed.

(** X1: [dcf_valuation] returns a result only if the truncated growth rates
    are non-empty, [discount_rate != -1] and the test
    [discount_rate <= terminal_growth_rate] is false. *)
Theorem dcf_valuation_returns_only_if
        (inputs : DCFInputs) (res : ValuationResult) :
  dcf_valuation inputs = Ok res ->
  growths inputs <> []
  /\ ~ discount_rate inputs == -1
  /\ ~ discount_rate inputs <= terminal_growth_rate inputs.
Proof.
  intros H. apply dcf_valuation_inv in H as (G & D & L & _).
  split; [exact G|]. split; [now apply not_minus_one|lra].
Qed.

Lemma dcf_valuation_returns_only_if_witness :
  growths example_inputs <> []
  /\ ~ discount_rate example_inputs == -1
  /\ ~ discount_rate example_inputs <= terminal_growth_rate example_inputs.
Proof.
  apply (dcf_valuation_returns_only_if example_inputs
                                       (closed_form example_inputs)).
  vm_compute. reflexivity.
Defined.

(** X2: [dcf_valuation] raises [IndexError] exactly when
    [revenue_growth_rates] is empty, [forecast_periods] is 0, or
    [forecast_periods <= -len(revenue_growth_rates)]: the three ways for the
    slice to be empty. *)
Theorem dcf_valuation_index_error_iff (inputs : DCFInputs) :
  dcf_valuation inputs = Raise IndexError
  <-> revenue_growth_rates inputs = []
      \/ forecast_periods inputs = 0%Z
      \/ (forecast_periods inputs
          <= - Z.of_nat (length (revenue_growth_rates inputs)))%Z.
Proof.
  rewrite <- slice_to_nil_iff. fold (growths inputs). split.
  - intros H.
    destruct (dcf_valuation_raise_inv _ _ H)
      as [[G _]|[(_ & _ & [E|E])|[(_ & _ & _ & E)|(_ & _ & _ & [E|E])]]];
      try discriminate E.
    exact G.
  - apply dcf_valuation_index_error.
Qed.

(** X3: with no cash flow [discount_cash_flows] returns [[]], whatever the
    rate; with at least one cash flow and [rate == -1] it raises
    [ZeroDivisionError]; and it never raises anything but
    [ZeroDivisionError] or [OverflowError]. *)
Theorem discount_cash_flows_raises_only (cash_flows : list Q) (rate : Q) :
  discount_cash_flows [] rate = Ok []
  /\ (cash_flows <> [] -> rate == -1 ->
      discount_cash_flows cash_flows rate = Raise ZeroDivisionError)
  /\ (forall e, discount_cash_flows cash_flows rate = Raise e ->
                e = ZeroDivisionError \/ e = OverflowError).
Proof.
  split; [reflexivity|]. split.
  - intros Hne Hr. destruct cash_flows as [|cf cfs]; [congruence|].
    apply discount_cash_flows_zero. lra.
  - intros e H. now apply discount_loop_raises in H.
Qed.

(** X4: with non-empty truncated growth rates and [discount_rate == -1],
    [dcf_valuation] raises [ZeroDivisionError], whatever
    [terminal_growth_rate] is: the division by zero of the discounting loop
    comes before the check of [terminal_value]. *)
Theorem dcf_valuation_zero_division_first (inputs : DCFInputs) :
  growths inputs <> [] ->
  discount_rate inputs == -1 ->
  dcf_valuation inputs = Raise ZeroDivisionError.
Proof.
  intros G D. apply dcf_valuation_zero_division; [exact G|lra].
Qed.

Lemma dcf_valuation_zero_division_first_witness :
  -1 <= 0.03
  /\ dcf_valuation {| current_revenue := 100;
                      revenue_growth_rates := [0.2; 0.1];
                      profit_margin := 0.5;
                      tax_rate := 0.25;
                      reinvestment_rate := 0.2;
                      discount_rate := -1;
                      terminal_growth_rate := 0.03;
                      forecast_periods := 2 |}
     = Raise ZeroDivisionError.
Proof.
  split; [lra|].
  apply dcf_valuation_zero_division_first.
  - discriminate.
  - reflexivity.
Defined.

(** X5: a negative [forecast_periods] is accepted.  When the valuation
    succeeds with [forecast_periods < 0], the last [-forecast_periods] growth
    rates are dropped and the three sequences have length
    [len(revenue_growth_rates) + forecast_periods]. *)
Theorem dcf_valuation_negative_periods
        (inputs : DCFInputs) (res : ValuationResult) :
  (forecast_periods inputs < 0)%Z ->
  dcf_valuation inputs = Ok res ->
  growths inputs
  = firstn (length (revenue_growth_rates inputs)
            - Z.to_nat (- forecast_periods inputs))
           (revenue_growth_rates inputs)
  /\ Z.of_nat (length (revenues res))
     = (Z.of_nat (length (revenue_growth_rates inputs))
        + forecast_periods inputs)%Z
  /\ length (fcfs res) = length (revenues res)
  /\ length (discounted_fcfs res) = length (revenues res).
Proof.
  intros Hneg H.
  apply dcf_valuation_inv in H as (G & D & _ & ->).
  assert (Hg : growths inputs
               = firstn (length (revenue_growth_rates inputs)
                         - Z.to_nat (- forecast_periods inputs))
                        (revenue_growth_rates inputs)).
  { unfold growths, slice_to.
    destruct (0 <=? forecast_periods inputs)%Z eqn:E; [lia|].
    f_equal. lia. }
  destruct (closed_form_lengths inputs) as (L1 & L2 & L3).
  split; [exact Hg|]. split; [|split; congruence].
  rewrite L1. rewrite Hg in G |- *. rewrite length_firstn.
  destruct (Nat.le_gt_cases
              (length (revenue_growth_rates inputs))
              (Z.to_nat (- forecast_periods inputs))) as [Hle|Hgt]; [|lia].
  exfalso. apply G.
  replace (length (revenue_growth_rates inputs)
           - Z.to_nat (- forecast_periods inputs))%nat with 0%nat by lia.
  reflexivity.
Qed.

Lemma dcf_valuation_negative_periods_witness :
  exists res,
    dcf_valuation (set_forecast_periods (-1) example_inputs) = Ok res
    /\ growths (set_forecast_periods (-1) example_inputs)
       = [0.20; 0.15; 0.12; 0.10]
    /\ length (revenues res) = 4%nat.
Proof.
  exists (closed_form (set_forecast_periods (-1) example_inputs)).
  assert (E : dcf_valuation (set_forecast_periods (-1) example_inputs)
              = Ok (closed_form (set_forecast_periods (-1) example_inputs)))
    by (vm_compute; reflexivity).
  destruct (dcf_valuation_negative_periods
              (set_forecast_periods (-1) example_inputs) _
              ltac:(simpl; lia) E) as (G & _ & _ & _).
  split; [exact E|]. split; [exact G|reflexivity].
Defined.

(** X6: lengthening the forecast leaves the earlier years as they are.  For
    [0 <= n1 <= n2], the [revenues], [fcfs] and [discounted_fcfs] of a
    successful valuation over [n1] periods are the first [n1] entries of
    those of a successful valuation over [n2] periods of the same inputs. *)
Theorem dcf_valuation_horizon_prefix
        (inputs : DCFInputs) (n1 n2 : Z) (res1 res2 : ValuationResult) :
  (0 <= n1 <= n2)%Z ->
  dcf_valuation (set_forecast_periods n1 inputs) = Ok res1 ->
  dcf_valuation (set_forecast_periods n2 inputs) = Ok res2 ->
  revenues res1 = firstn (Z.to_nat n1) (revenues res2)
  /\ fcfs res1 = firstn (Z.to_nat n1) (fcfs res2)
  /\ discounted_fcfs res1 = firstn (Z.to_nat n1) (discounted_fcfs res2).
Proof.
  intros Hn H1 H2.
  apply dcf_valuation_inv in H1 as (_ & _ & _ & ->).
  apply dcf_valuation_inv in H2 as (_ & _ & _ & ->).
  assert (Hg : growths (set_forecast_periods n1 inputs)
               = firstn (Z.to_nat n1) (growths (set_forecast_periods n2 inputs))).
  { unfold growths. cbn [set_forecast_periods revenue_growth_rates forecast_periods].
    rewrite !slice_to_firstn by lia. rewrite firstn_firstn.
    f_equal. lia. }
  cbn [closed_form revenues fcfs discounted_fcfs
       set_forecast_periods current_revenue profit_margin reinvestment_rate
       discount_rate] in *.
  rewrite Hg, compound_firstn.
  rewrite <- !firstn_map, enumerate_firstn, <- !firstn_map.
  auto.
Qed.

Lemma dcf_valuation_horizon_prefix_witness :
  exists res1 res2,
    dcf_valuation (set_forecast_periods 2 example_inputs) = Ok res1
    /\ dcf_valuation (set_forecast_periods 5 example_inputs) = Ok res2
    /\ revenues res1 = firstn 2 (revenues res2)
    /\ discounted_fcfs res1 = firstn 2 (discounted_fcfs res2).
Proof.
  exists (closed_form (set_forecast_periods 2 example_inputs)),
         (closed_form (set_forecast_periods 5 example_inputs)).
  assert (E1 : dcf_valuation (set_forecast_periods 2 example_inputs)
               = Ok (closed_form (set_forecast_periods 2 example_inputs)))
    by (vm_compute; reflexivity).
  assert (E2 : dcf_valuation (set_forecast_periods 5 example_inputs)
               = Ok (closed_form (set_forecast_periods 5 example_inputs)))
    by (vm_compute; reflexivity).
  destruct (dcf_valuation_horizon_prefix example_inputs 2 5 _ _
              ltac:(lia) E1 E2) as (R & _ & D).
  split; [exact E1|]. split; [exact E2|]. split; [exact R|exact D].
Defined.

Lemma last_cons_default {A : Type} (l : list A) (x d : A) :
  last (x :: l) d = last l x.
Proof.
  revert x d. induction l as [|y l IH]; intros x d; [reflexivity|].
  change (last (x :: y :: l) d) with (last (y :: l) d).
  rewrite (IH y d), (IH y x). reflexivity.
Qed.

Lemma compound_app (gs1 gs2 : list Q) (r : Q) :
  compound r (gs1 ++ gs2)
  = compound r gs1 ++ compound (last (compound r gs1) r) gs2.
Proof.
  revert r. induction gs1 as [|g gs1 IH]; intros r; [reflexivity|].
  cbn [app compound]. rewrite IH, last_cons_default. reflexivity.
Qed.

(** X8: a projection can be resumed.  Projecting over [rates1 ++ rates2] is
    projecting over [rates1] and then over [rates2] from the last revenue
    reached (from [current_revenue] itself when [rates1] is empty). *)
Theorem project_revenues_app (current_revenue : Q) (rates1 rates2 : list Q) :
  project_revenues current_revenue (rates1 ++ rates2)
  = project_revenues current_revenue rates1
    ++ project_revenues
         (last (project_revenues current_revenue rates1) current_revenue)
         rates2.
Proof. rewrite !project_revenues_compound. apply compound_app. Qed.

(** X9: discounting at a non-negative rate never increases a non-negative
    cash flow and never makes it negative: [0 <= pv <= cash_flow] at every
    position. *)
Theorem discount_cash_flows_bounds
        (cash_flows discounted : list Q) (rate : Q) (i : nat) (cf pv : Q) :
  0 <= rate ->
  discount_cash_flows cash_flows rate = Ok discounted ->
  nth_error cash_flows i = Some cf ->
  nth_error discounted i = Some pv ->
  0 <= cf ->
  0 <= pv <= cf.
Proof.
  intros Hr H Hcf Hpv Hpos.
  apply discount_cash_flows_ok_inv in H. subst discounted.
  rewrite nth_error_map, enumerate_nth_error, Hcf in Hpv.
  cbn [option_map] in Hpv. unfold present_value in Hpv. cbn [fst snd] in Hpv.
  assert (H1 : 1 <= (1 + rate) ^ (1 + Z.of_nat i))
    by (apply Qpower_1_le; [lra|lia]).
  set (p := (1 + rate) ^ (1 + Z.of_nat i)) in *.
  assert (Epv : pv = cf / p) by congruence. rewrite Epv. clear Hpv Epv.
  assert (Hm : 0 <= cf * (p - 1)) by (apply Qmult_le_0_compat; lra).
  split.
  - apply Qle_shift_div_l; lra.
  - apply Qle_shift_div_r; lra.
Qed.

Lemma discount_cash_flows_bounds_witness :
  0 <= 110 / (1 + 0.1) ^ 1 <= 110.
Proof.
  apply (discount_cash_flows_bounds
           [110; 121] (map (present_value 0.1) (enumerate [110; 121] 1))
           0.1 0 110 _).
  - lra.
  - vm_compute. reflexivity.
  - reflexivity.
  - reflexivity.
  - lra.
Defined.

(** X10: at rate 0 discounting changes nothing: every present value equals
    its cash flow. *)
Theorem discount_cash_flows_rate_zero (cash_flows : list Q) :
  exists discounted,
    discount_cash_flows cash_flows 0 = Ok discounted
    /\ Forall2 Qeq discounted cash_flows.
Proof.
  exists (map (present_value 0) (enumerate cash_flows 1)).
  split.
  { apply (discount_loop_ok 0 cash_flows 1 []).
    intros i _.
    assert (E : (1 + 0) ^ (Z.of_nat i + 1) == 1)
      by (assert (E1 : 1 + 0 == 1) by lra; rewrite E1; apply Qpower_1).
    exists ((1 + 0) ^ (Z.of_nat i + 1)). split.
    - apply pow_in_range; rewrite E; change (Qabs 1) with 1.
      + apply float_overflow_above_one.
      + apply float_underflow_below_one.
    - rewrite E. discriminate. }
  generalize 1%Z.
  induction cash_flows as [|cf cfs IH]; intros k; simpl; constructor.
  - unfold present_value. cbn [fst snd].
    assert (E : 1 + 0 == 1) by lra. rewrite E, Qpower_1. field.
  - apply IH.
Qed.

(** ** The explanation *)

Lemma append_each_map {A : Type} (line : A -> string) (xs : list A)
      (lines : list string) :
  append_each line xs lines = lines ++ map line xs.
Proof.
  unfold append_each. revert lines.
  induction xs as [|x xs IH]; intros lines; simpl.
  - now rewrite app_nil_r.
  - rewrite IH, <- app_assoc. reflexivity.
Qed.

(** The whole function is the numeric pipeline followed by the rendering of
    its result: no statement after the dict is built can raise. *)
Lemma dcf_valuation_explained_eq (F : Formats) (inputs : DCFInputs) :
  dcf_valuation_explained F inputs
  = (res <- dcf_valuation inputs ;;
     Ok (res, String.concat newline (lines_of F inputs res))).
Proof.
  unfold dcf_valuation_explained, dcf_valuation, lines_of, growths. cbv zeta.
  destruct (discount_cash_flows _ _) as [ds|e]; [|reflexivity]. cbn [bind].
  destruct (last_item _) as [l|e] eqn:El; [|reflexivity]. cbn [bind].
  destruct (terminal_value _ _ _) as [tv|e]; [|reflexivity]. cbn [bind].
  destruct (pow _ _) as [d|e]; [|reflexivity]. cbn [bind].
  destruct (truediv _ _) as [pv|e]; [|reflexivity]. cbn [bind].
  cbn [revenues fcfs discounted_fcfs res_terminal_value pv_terminal_value
       enterprise_value].
  now rewrite (last_item_ok _ _ 0 El).
Qed.

Lemma dcf_valuation_explained_inv (F : Formats) (inputs : DCFInputs)
      (res : ValuationResult) (text : string) :
  dcf_valuation_explained F inputs = Ok (res, text) ->
  dcf_valuation inputs = Ok res
  /\ text = String.concat newline (lines_of F inputs res).
Proof.
  rewrite dcf_valuation_explained_eq.
  destruct (dcf_valuation inputs) as [r|e]; cbn [bind]; [|discriminate].
  intros H. split; congruence.
Qed.

Lemma nth_error_skip {A : Type} (l rest : list A) (n k : nat) :
  length l = n -> nth_error (l ++ rest) (n + k) = nth_error rest k.
Proof.
  intros <-. rewrite nth_error_app2 by lia. f_equal. lia.
Qed.

Lemma nth_error_year {A B : Type} (line : Z * (A * B) -> string)
      (l1 : list A) (l2 : list B) (rest : list string)
      (i : nat) (a : A) (b : B) :
  nth_error l1 i = Some a -> nth_error l2 i = Some b ->
  nth_error (map line (enumerate (combine l1 l2) 1) ++ rest) i
  = Some (line ((Z.of_nat i + 1)%Z, (a, b))).
Proof.
  intros Ha Hb.
  assert (Hc : nth_error (combine l1 l2) i = Some (a, b)).
  { revert l2 i Ha Hb.
    induction l1 as [|x l1 IH]; intros [|y l2] [|i] Ha Hb;
      try discriminate; simpl in *.
    - congruence.
    - now apply IH. }
  rewrite nth_error_app1.
  - rewrite nth_error_map, enumerate_nth_error, Hc. cbn [option_map].
    now rewrite Z.add_comm.
  - rewrite length_map, enumerate_length.
    apply nth_error_Some. congruence.
Qed.

(** X14: the explanation of a successful valuation is the join, with
    newlines, of 29 fixed lines and three lines per projected year. *)
Theorem explanation_line_count (F : Formats) (inputs : DCFInputs)
        (res : ValuationResult) (text : string) :
  dcf_valuation_explained F inputs = Ok (res, text) ->
  text = String.concat newline (lines_of F inputs res)
  /\ length (lines_of F inputs res) = (29 + 3 * length (revenues res))%nat.
Proof.
  intros H. apply dcf_valuation_explained_inv in H as [H ->].
  split; [reflexivity|].
  apply dcf_valuation_inv in H as (_ & _ & _ & ->).
  destruct (closed_form_lengths inputs) as (L1 & L2 & L3).
  unfold lines_of, explanation_lines. cbv zeta.
  rewrite !append_each_map.
  rewrite !length_app, !length_map, !enumerate_length, !length_combine.
  rewrite L1, L2, L3. cbn [length]. lia.
Qed.

Lemma explanation_line_count_witness :
  exists res text,
    dcf_valuation_explained tag_formats example_inputs = Ok (res, text)
    /\ length (lines_of tag_formats example_inputs res) = 44%nat.
Proof.
  exists (closed_form example_inputs),
         (String.concat newline
            (lines_of tag_formats example_inputs (closed_form example_inputs))).
  assert (E : dcf_valuation_explained tag_formats example_inputs
              = Ok (closed_form example_inputs,
                    String.concat newline
                      (lines_of tag_formats example_inputs
                                (closed_form example_inputs))))
    by (vm_compute; reflexivity).
  split; [exact E|].
  exact (proj2 (explanation_line_count tag_formats example_inputs _ _ E)).
Defined.

(** X15: the explanation shows the numbers of the returned dict, year by
    year.  For year [i + 1] of a successful valuation over [n] years, line
    [6 + i] renders the growth rate and the revenue of that year, line
    [9 + n + i] its revenue and free cash flow, and line [12 + 2 n + i] its
    free cash flow and present value (lines counted from 0). *)
Theorem explanation_year_lines (F : Formats) (inputs : DCFInputs)
        (res : ValuationResult) (text : string)
        (i : nat) (g rev fcf pv : Q) :
  dcf_valuation_explained F inputs = Ok (res, text) ->
  nth_error (growths inputs) i = Some g ->
  nth_error (revenues res) i = Some rev ->
  nth_error (fcfs res) i = Some fcf ->
  nth_error (discounted_fcfs res) i = Some pv ->
  nth_error (lines_of F inputs res) (6 + i)
  = Some (" Year " ++ decimal F (Z.of_nat i + 1) ++ ": applied growth "
          ++ fixed2 F (g * 100)
          ++ "% to previous revenue. Projected revenue = " ++ money F rev
          ++ ".")%string
  /\ nth_error (lines_of F inputs res) (9 + length (revenues res) + i)
     = Some (" Year " ++ decimal F (Z.of_nat i + 1) ++ ": FCF = "
             ++ money F rev ++ " × " ++ percent2 F (profit_margin inputs)
             ++ " × (1 - " ++ percent2 F (reinvestment_rate inputs)
             ++ ") = " ++ money F fcf ++ ".")%string
  /\ nth_error (lines_of F inputs res) (12 + 2 * length (revenues res) + i)
     = Some (" Year " ++ decimal F (Z.of_nat i + 1) ++ ": Discounted FCF = "
             ++ money F fcf ++ " / (1 + " ++ percent2 F (discount_rate inputs)
             ++ ")^" ++ decimal F (Z.of_nat i + 1) ++ " = " ++ money F pv
             ++ ".")%string.
Proof.
  intros H Hg Hrev Hfcf Hpv.
  apply dcf_valuation_explained_inv in H as [H _].
  apply dcf_valuation_inv in H as (_ & _ & _ & ->).
  destruct (closed_form_lengths inputs) as (L1 & L2 & L3).
  set (n := length (revenues (closed_form inputs))).
  assert (B1 : forall line : Z * (Q * Q) -> string,
             length (map line (enumerate
                                 (combine (growths inputs)
                                          (revenues (closed_form inputs))) 1))
             = n)
    by (intros; rewrite length_map, enumerate_length, length_combine; lia).
  assert (B2 : forall line : Z * (Q * Q) -> string,
             length (map line (enumerate
                                 (combine (revenues (closed_form inputs))
                                          (fcfs (closed_form inputs))) 1))
             = n)
    by (intros; rewrite length_map, enumerate_length, length_combine; lia).
  unfold lines_of, explanation_lines. cbv zeta.
  rewrite !append_each_map, <- !app_assoc. cbn [app].
  repeat split.
  - cbn [nth_error Nat.add].
    now rewrite (nth_error_year _ _ _ _ i g rev).
  - replace (9 + n + i)%nat with (6 + (n + (3 + i)))%nat by lia.
    cbn [nth_error Nat.add].
    rewrite (nth_error_skip _ _ n) by apply B1.
    cbn [nth_error].
    now rewrite (nth_error_year _ _ _ _ i rev fcf).
  - replace (12 + 2 * n + i)%nat
      with (6 + (n + (3 + (n + (3 + i)))))%nat by lia.
    cbn [nth_error Nat.add].
    rewrite (nth_error_skip _ _ n) by apply B1.
    cbn [nth_error].
    rewrite (nth_error_skip _ _ n) by apply B2.
    cbn [nth_error].
    now rewrite (nth_error_year _ _ _ _ i fcf pv).
Qed.

Lemma explanation_year_lines_witness :
  nth_error (lines_of tag_formats example_inputs (closed_form example_inputs)) 6
  = Some " Year 1: applied growth <fixed>% to previous revenue. Projected revenue = <money>."%string
  /\ nth_error (lines_of tag_formats example_inputs (closed_form example_inputs)) 14
     = Some " Year 1: FCF = <money> × <percent> × (1 - <percent>) = <money>."%string
  /\ nth_error (lines_of tag_formats example_inputs (closed_form example_inputs)) 22
     = Some " Year 1: Discounted FCF = <money> / (1 + <percent>)^1 = <money>."%string.
Proof.
  assert (E : dcf_valuation_explained tag_formats example_inputs
              = Ok (closed_form example_inputs,
                    String.concat newline
                      (lines_of tag_formats example_inputs
                                (closed_form example_inputs))))
    by (vm_compute; reflexivity).
  exact (explanation_year_lines tag_formats example_inputs _ _ 0 _ _ _ _
           E eq_refl eq_refl eq_refl eq_refl).
Defined.

(** X16: the closing lines of the explanation show the numbers of the
    returned dict.  After the [12 + 3 n] lines up to the last year, line
    [+4] renders [fcfs[-1]], line [+5] the terminal value, lines [+6] and
    [+11] its present value, line [+10] [sum(discounted_fcfs)] and line
    [+12] the enterprise value. *)
Theorem explanation_summary_lines (F : Formats) (inputs : DCFInputs)
        (res : ValuationResult) (text : string) (last_fcf : Q) :
  dcf_valuation_explained F inputs = Ok (res, text) ->
  last_item (fcfs res) = Ok last_fcf ->
  nth_error (lines_of F inputs res) (12 + 3 * length (revenues res) + 4)
  = Some (" Last FCF = " ++ money F last_fcf ++ "; terminal growth = "
          ++ percent2 F (terminal_growth_rate inputs) ++ "; discount rate = "
          ++ percent2 F (discount_rate inputs) ++ ".")%string
  /\ nth_error (lines_of F inputs res) (12 + 3 * length (revenues res) + 5)
     = Some (" Terminal Value (undiscounted) = "
             ++ money F (res_terminal_value res) ++ ".")%string
  /\ nth_error (lines_of F inputs res) (12 + 3 * length (revenues res) + 6)
     = Some (" Discounted terminal value (PV) to today = "
             ++ money F (pv_terminal_value res) ++ ".")%string
  /\ nth_error (lines_of F inputs res) (12 + 3 * length (revenues res) + 10)
     = Some (" Sum discounted FCFs = "
             ++ money F (sum (discounted_fcfs res)) ++ ".")%string
  /\ nth_error (lines_of F inputs res) (12 + 3 * length (revenues res) + 11)
     = Some (" PV(Terminal Value) = "
             ++ money F (pv_terminal_value res) ++ ".")%string
  /\ nth_error (lines_of F inputs res) (12 + 3 * length (revenues res) + 12)
     = Some (" Enterprise Value = "
             ++ money F (enterprise_value res) ++ ".")%string.
Proof.
  intros H Hl.
  apply dcf_valuation_explained_inv in H as [H _].
  apply (last_item_ok _ _ 0) in Hl.
  apply dcf_valuation_inv in H as (_ & _ & _ & ->).
  destruct (closed_form_lengths inputs) as (L1 & L2 & L3).
  set (n := length (revenues (closed_form inputs))).
  assert (B : forall (l1 l2 : list Q) (line : Z * (Q * Q) -> string),
             length l1 = n -> length l2 = n ->
             length (map line (enumerate (combine l1 l2) 1)) = n)
    by (intros; rewrite length_map, enumerate_length, length_combine; lia).
  assert (Ng : length (growths inputs) = n) by (subst n; lia).
  assert (Nf : length (fcfs (closed_form inputs)) = n) by (subst n; lia).
  assert (Nd : length (discounted_fcfs (closed_form inputs)) = n)
    by (subst n; lia).
  unfold lines_of, explanation_lines. cbv zeta.
  rewrite !append_each_map, <- !app_assoc. cbn [app].
  rewrite <- Hl.
  repeat split;
    match goal with
    | |- nth_error _ (12 + 3 * n + ?k)%nat = _ =>
        replace (12 + 3 * n + k)%nat
          with (6 + (n + (3 + (n + (3 + (n + k))))))%nat by lia
    end;
    cbn [nth_error Nat.add];
    rewrite (nth_error_skip _ _ n) by (apply B; [exact Ng|reflexivity]);
    cbn [nth_error];
    rewrite (nth_error_skip _ _ n) by (apply B; [reflexivity|exact Nf]);
    cbn [nth_error];
    rewrite (nth_error_skip _ _ n) by (apply B; [exact Nf|exact Nd]);
    reflexivity.
Qed.

Lemma explanation_summary_lines_witness :
  nth_error (lines_of tag_formats example_inputs (closed_form example_inputs)) 39
  = Some " Enterprise Value = <money>."%string.
Proof.
  assert (E : dcf_valuation_explained tag_formats example_inputs
              = Ok (closed_form example_inputs,
                    String.concat newline
                      (lines_of tag_formats example_inputs
                                (closed_form example_inputs))))
    by (vm_compute; reflexivity).
  assert (L : last_item (fcfs (closed_form example_inputs))
              = Ok (last (fcfs (closed_form example_inputs)) 0))
    by (vm_compute; reflexivity).
  exact (proj2 (proj2 (proj2 (proj2 (proj2
           (explanation_summary_lines tag_formats example_inputs _ _ _ E L)))))).
Defined.
